(** * The application controller of the video analyzer (src/App.tsx)

    A shallow embedding of the [App] component's state, of its two handlers
    [handleFileUpload] and [handleAnalyze], and of the events the rendered
    tree lets through, followed by the properties of the controller.

    React commits the setter calls of one synchronous section of a handler
    together; a handler section is therefore embedded as the list of the
    calls it makes, in source order, computed from the values its closure
    captured (the state of the last render), and a transition of the
    controller executes one such list.  An [await] ends a section: the
    remainder of [handleAnalyze] runs when the awaited promise settles. *)

From Stdlib Require Import String List ZArith QArith Bool Lia.
Import ListNotations.

Local Open Scope string_scope.
Local Open Scope list_scope.

(** ** Data (src/types.ts and the browser's values) *)

Record KeyMoment := mkKeyMoment {
  timestamp_description : string;
  event_summary : string
}.

Record AnalysisResult := mkAnalysisResult {
  title : string;
  summary : string;
  key_topics : list string;
  key_moments : list KeyMoment
}.

(** A browser [File]: the controller only reads its MIME [type]. *)
Record File := mkFile {
  name : string;
  type : string
}.

(** A frame is encoded image data. *)
Definition Frame := string.

(** What a [catch] clause can receive.  JavaScript throws any value: an
    instance of [Error], which carries a [message], or something else (a
    [MediaError], an [Event], a rejected plain object, a string), whose
    [message] property may or may not exist. *)
Inductive Thrown :=
| ErrorInstance (message : string)
| NonError (message : option string).

(** The [message] property of a thrown value, when it has one. *)
Definition fault_message (err : Thrown) : option string :=
  match err with
  | ErrorInstance m => Some m
  | NonError m => m
  end.

(** ** The component state: the eight [useState] cells of [App] *)

Record State := mkState {
  videoFile : option File;
  videoUrl : option string;
  analysisResult : option AnalysisResult;
  isLoading : bool;
  loadingMessage : string;
  error : option string;
  frameCount : Z;
  extractionProgress : Q
}.

Definition initialState : State :=
  {| videoFile := None;
     videoUrl := None;
     analysisResult := None;
     isLoading := false;
     loadingMessage := "";
     error := None;
     frameCount := 15;
     extractionProgress := 0 |}.

(** Calls that leave the component. *)
Inductive Effect :=
| ExtractFramesFromVideo (file : File) (count : Z)
| AnalyzeVideoFrames (frames : list Frame)
| ConsoleError (err : Thrown).

(** The calls a handler section makes: the state setters and the effects. *)
Inductive Cmd :=
| setVideoFile (v : option File)
| setVideoUrl (v : option string)
| setAnalysisResult (v : option AnalysisResult)
| setIsLoading (v : bool)
| setLoadingMessage (v : string)
| setError (v : option string)
| setFrameCount (v : Z)
| setExtractionProgress (v : Q)
| call (e : Effect).

(** Where [handleAnalyze] is suspended, if a run is pending. *)
Inductive Pending :=
| NoRun
| AwaitExtract
| AwaitAnalyze.

(** The controller: the committed state, the suspended run, and the effects
    issued so far, oldest first. *)
Record Config := mkConfig {
  ui : State;
  pending : Pending;
  effects : list Effect
}.

Definition initialConfig : Config :=
  {| ui := initialState; pending := NoRun; effects := [] |}.

Definition apply_cmd (c : Config) (k : Cmd) : Config :=
  let s := ui c in
  let put s' := {| ui := s'; pending := pending c; effects := effects c |} in
  match k with
  | setVideoFile v =>
      put (mkState v (videoUrl s) (analysisResult s) (isLoading s)
             (loadingMessage s) (error s) (frameCount s) (extractionProgress s))
  | setVideoUrl v =>
      put (mkState (videoFile s) v (analysisResult s) (isLoading s)
             (loadingMessage s) (error s) (frameCount s) (extractionProgress s))
  | setAnalysisResult v =>
      put (mkState (videoFile s) (videoUrl s) v (isLoading s)
             (loadingMessage s) (error s) (frameCount s) (extractionProgress s))
  | setIsLoading v =>
      put (mkState (videoFile s) (videoUrl s) (analysisResult s) v
             (loadingMessage s) (error s) (frameCount s) (extractionProgress s))
  | setLoadingMessage v =>
      put (mkState (videoFile s) (videoUrl s) (analysisResult s) (isLoading s)
             v (error s) (frameCount s) (extractionProgress s))
  | setError v =>
      put (mkState (videoFile s) (videoUrl s) (analysisResult s) (isLoading s)
             (loadingMessage s) v (frameCount s) (extractionProgress s))
  | setFrameCount v =>
      put (mkState (videoFile s) (videoUrl s) (analysisResult s) (isLoading s)
             (loadingMessage s) (error s) v (extractionProgress s))
  | setExtractionProgress v =>
      put (mkState (videoFile s) (videoUrl s) (analysisResult s) (isLoading s)
             (loadingMessage s) (error s) (frameCount s) v)
  | call e =>
      {| ui := s; pending := pending c; effects := effects c ++ [e] |}
  end.

Definition exec (ks : list Cmd) (c : Config) : Config :=
  fold_left apply_cmd ks c.

Definition suspend (p : Pending) (c : Config) : Config :=
  {| ui := ui c; pending := p; effects := effects c |}.

(** ** The messages of the source *)

Definition invalidUploadMessage : string :=
  "Please upload a valid video file.".

Definition noFileMessage : string :=
  "No video file selected.".

Definition extractingMessage : string :=
  "Extracting key frames from video...".

Definition sendingMessage : string :=
  "Sending frames to Gemini for analysis...".

Definition noFramesMessage : string :=
  "Could not extract any frames from the video. The file might be corrupted or in an unsupported format.".

Definition unknownErrorMessage : string :=
  "An unknown error occurred during analysis.".

(** Events: what the user, the extractor and the analysis client can make
    happen.  The outcome of an asynchronous call is the payload of the event
    that settles it. *)
Inductive Event :=
| FileUploaded (file : File)
| SliderChanged (value : Z)
| AnalyzeTriggered
| ProgressReported (progress : Q)
| ExtractionResolved (frames : list Frame)
| ExtractionRejected (err : Thrown)
| AnalysisResolved (result : AnalysisResult)
| AnalysisRejected (err : Thrown).

(** How a run of [handleAnalyze] that was started on a file unfolds: the
    progress callbacks, how extraction settles, and how analysis settles. *)
Inductive Settled (A : Type) :=
| Resolved (v : A)
| Rejected (err : Thrown).

Arguments Resolved {A} v.
Arguments Rejected {A} err.

Record Script := mkScript {
  progressReports : list Q;
  extraction : Settled (list Frame);
  analysis : Settled AnalysisResult
}.

(** ** Sample values, for the concrete instances below *)

Definition sampleVideo : File :=
  {| name := "clip.mp4"; type := "video/mp4" |}.

Definition sampleText : File :=
  {| name := "notes.txt"; type := "text/plain" |}.

Definition sampleFrames : list Frame :=
  [ "data:image/jpeg;base64,AAAA"; "data:image/jpeg;base64,BBBB" ].

Definition sampleResult : AnalysisResult :=
  {| title := "T";
     summary := "S";
     key_topics := [ "a" ];
     key_moments :=
       [ {| timestamp_description := "0:02"; event_summary := "x" |} ] |}.

(** A [MediaError]-like rejection: it has a [message], it is no [Error]. *)
Definition sampleMediaError : Thrown :=
  NonError (Some "MEDIA_ELEMENT_ERROR: Format error").

Definition blobURL (file : File) : string :=
  ("blob:" ++ name file)%string.

(** An [UploadZone] that forwards files only while nothing is loading. *)
Definition idleOnly (loading : bool) : bool :=
  negb loading.

(** The sample video selected; extraction pending; analysis pending; done. *)
Definition selectedConfig : Config :=
  {| ui := mkState (Some sampleVideo) (Some (blobURL sampleVideo)) None
             false "" None 15 0;
     pending := NoRun;
     effects := [] |}.

Definition extractingConfig : Config :=
  {| ui := mkState (Some sampleVideo) (Some (blobURL sampleVideo)) None
             true extractingMessage None 15 0;
     pending := AwaitExtract;
     effects := [ ExtractFramesFromVideo sampleVideo 15 ] |}.

Definition analyzingConfig : Config :=
  {| ui := mkState (Some sampleVideo) (Some (blobURL sampleVideo)) None
             true sendingMessage None 15 1;
     pending := AwaitAnalyze;
     effects := [ ExtractFramesFromVideo sampleVideo 15;
                  AnalyzeVideoFrames sampleFrames ] |}.

Definition doneConfig : Config :=
  {| ui := mkState (Some sampleVideo) (Some (blobURL sampleVideo))
             (Some sampleResult) false "" None 15 1;
     pending := NoRun;
     effects := [ ExtractFramesFromVideo sampleVideo 15;
                  AnalyzeVideoFrames sampleFrames ] |}.

(** A non-video upload arrived after the analysis was done. *)
Definition rejectedUploadConfig : Config :=
  {| ui := mkState (Some sampleVideo) (Some (blobURL sampleVideo))
             (Some sampleResult) false "" (Some invalidUploadMessage) 15 1;
     pending := NoRun;
     effects := [ ExtractFramesFromVideo sampleVideo 15;
                  AnalyzeVideoFrames sampleFrames ] |}.

(** The extraction was rejected with the sample media error. *)
Definition mediaErrorConfig : Config :=
  {| ui := mkState (Some sampleVideo) (Some (blobURL sampleVideo)) None
             false "" (Some "Analysis Failed: An unknown error occurred during analysis.")
             15 0;
     pending := NoRun;
     effects := [ ExtractFramesFromVideo sampleVideo 15;
                  ConsoleError sampleMediaError ] |}.

(** The analysis was triggered with nothing selected. *)
Definition noFileConfig : Config :=
  {| ui := mkState None None None false "" (Some noFileMessage) 15 0;
     pending := NoRun;
     effects := [] |}.

Definition toExtracting : list Event :=
  [ FileUploaded sampleVideo; AnalyzeTriggered ].

Definition toAnalyzing : list Event :=
  toExtracting ++ [ ProgressReported 1; ExtractionResolved sampleFrames ].

Definition toDone : list Event :=
  toAnalyzing ++ [ AnalysisResolved sampleResult ].

Definition sampleScript : Script :=
  {| progressReports := [ 1 # 2; 1 ];
     extraction := Resolved sampleFrames;
     analysis := Resolved sampleResult |}.

Section Controller.

(** [URL.createObjectURL] of the browser. *)
Variable createObjectURL : File -> string.

(** [UploadZone] (./components/UploadZone, outside App.tsx) is rendered
    with the [isLoading] prop: whether it hands a dropped or picked file to
    [onFileUpload] for a given value of that prop is a parameter of the
    model. *)
Variable uploadZoneForwards : bool -> bool.

(** *** handleFileUpload (App.tsx, lines 25-34) *)

Definition handleFileUpload (file : File) : list Cmd :=
  if prefix "video/" (type file) then
    [ setVideoFile (Some file);
      setVideoUrl (Some (createObjectURL file));
      setAnalysisResult None;
      setError None ]
  else
    [ setError (Some invalidUploadMessage) ].

(** *** handleAnalyze (App.tsx, lines 36-71) *)

(** [err instanceof Error ? err.message : '...'] *)
Definition errorMessage (err : Thrown) : string :=
  match err with
  | ErrorInstance m => m
  | NonError _ => unknownErrorMessage
  end.

Definition handleAnalyze_catch (err : Thrown) : list Cmd :=
  [ call (ConsoleError err);
    setError (Some ("Analysis Failed: " ++ errorMessage err)%string) ].

Definition handleAnalyze_finally : list Cmd :=
  [ setIsLoading false;
    setLoadingMessage "" ].

(** From the call to the first [await]; [s] is the state the callback
    closed over. *)
Definition handleAnalyze_enter (s : State) : list Cmd * Pending :=
  match videoFile s with
  | None => ([ setError (Some noFileMessage) ], NoRun)
  | Some file =>
      ([ setIsLoading true;
         setError None;
         setAnalysisResult None;
         setExtractionProgress 0;
         setLoadingMessage extractingMessage;
         call (ExtractFramesFromVideo file (frameCount s)) ],
       AwaitExtract)
  end.

(** The progress callback handed to the extractor. *)
Definition onProgress (progress : Q) : list Cmd :=
  [ setExtractionProgress progress ].

(** After [await extractFramesFromVideo(...)] resolved. *)
Definition handleAnalyze_extracted (frames : list Frame) : list Cmd * Pending :=
  if (length frames =? 0)%nat then
    (handleAnalyze_catch (ErrorInstance noFramesMessage) ++ handleAnalyze_finally,
     NoRun)
  else
    ([ setLoadingMessage sendingMessage;
       call (AnalyzeVideoFrames frames) ],
     AwaitAnalyze).

(** After [await analyzeVideoFrames(frames)] resolved. *)
Definition handleAnalyze_analyzed (result : AnalysisResult) : list Cmd * Pending :=
  (setAnalysisResult (Some result) :: handleAnalyze_finally, NoRun).

(** After either awaited promise rejected. *)
Definition handleAnalyze_rejected (err : Thrown) : list Cmd * Pending :=
  (handleAnalyze_catch err ++ handleAnalyze_finally, NoRun).

(** *** The rendered controls (App.tsx, lines 79-110) *)

(** The slider: rendered when a file is selected, [min=5], [max=50],
    [disabled={isLoading}]. *)
Definition sliderAccepts (s : State) (value : Z) : bool :=
  match videoFile s with
  | Some _ => negb (isLoading s) && (5 <=? value)%Z && (value <=? 50)%Z
  | None => false
  end.

(** The analyze trigger is not available while [isLoading]; the button
    also requires a file, a case [handleAnalyze] guards for itself. *)
Definition analyzeAvailable (s : State) : bool :=
  negb (isLoading s).

Definition commit (r : list Cmd * Pending) (c : Config) : Config :=
  suspend (snd r) (exec (fst r) c).

(** One transition; [None] when the event cannot occur in [c].  [pending]
    holds the one run that can be suspended: the trigger is gone while
    [isLoading], and a promise settles only while its [await] is pending. *)
Definition step (c : Config) (e : Event) : option Config :=
  match e, pending c with
  | FileUploaded file, _ =>
      if uploadZoneForwards (isLoading (ui c))
      then Some (exec (handleFileUpload file) c)
      else None
  | SliderChanged value, _ =>
      if sliderAccepts (ui c) value
      then Some (exec [ setFrameCount value ] c)
      else None
  | AnalyzeTriggered, NoRun =>
      if analyzeAvailable (ui c)
      then Some (commit (handleAnalyze_enter (ui c)) c)
      else None
  | ProgressReported progress, AwaitExtract =>
      Some (exec (onProgress progress) c)
  | ExtractionResolved frames, AwaitExtract =>
      Some (commit (handleAnalyze_extracted frames) c)
  | ExtractionRejected err, AwaitExtract =>
      Some (commit (handleAnalyze_rejected err) c)
  | AnalysisResolved result, AwaitAnalyze =>
      Some (commit (handleAnalyze_analyzed result) c)
  | AnalysisRejected err, AwaitAnalyze =>
      Some (commit (handleAnalyze_rejected err) c)
  | _, _ => None
  end.

Fixpoint run (es : list Event) (c : Config) : option Config :=
  match es with
  | [] => Some c
  | e :: es' =>
      match step c e with
      | Some c' => run es' c'
      | None => None
      end
  end.

(** The events of one run of [handleAnalyze] on a selected file. *)
Definition settleExtraction (x : Settled (list Frame)) : Event :=
  match x with
  | Resolved frames => ExtractionResolved frames
  | Rejected err => ExtractionRejected err
  end.

Definition settleAnalysis (x : Settled AnalysisResult) : Event :=
  match x with
  | Resolved result => AnalysisResolved result
  | Rejected err => AnalysisRejected err
  end.

Definition reachesAnalysis (sc : Script) : bool :=
  match extraction sc with
  | Resolved frames => negb (length frames =? 0)%nat
  | Rejected _ => false
  end.

Definition runEvents (sc : Script) : list Event :=
  AnalyzeTriggered
    :: map ProgressReported (progressReports sc)
    ++ settleExtraction (extraction sc)
    :: (if reachesAnalysis sc then [ settleAnalysis (analysis sc) ] else []).

(** *** The states of the controller, as the specification names them *)

Definition inFlight (c : Config) : bool :=
  match pending c with
  | NoRun => false
  | AwaitExtract | AwaitAnalyze => true
  end.

Definition isSome {A} (o : option A) : bool :=
  match o with Some _ => true | None => false end.

(** Failed: no run pending, an error and no result. *)
Definition isFailed (c : Config) : bool :=
  negb (inFlight c) && negb (isLoading (ui c))
    && isSome (error (ui c)) && negb (isSome (analysisResult (ui c))).

(** Done: no run pending, a result and no error. *)
Definition isDone (c : Config) : bool :=
  negb (inFlight c) && negb (isLoading (ui c))
    && isSome (analysisResult (ui c)) && negb (isSome (error (ui c))).

(** FileSelected: a file and its preview, neither result nor error. *)
Definition isFileSelected (c : Config) : bool :=
  negb (inFlight c) && negb (isLoading (ui c))
    && isSome (videoFile (ui c)) && isSome (videoUrl (ui c))
    && negb (isSome (analysisResult (ui c))) && negb (isSome (error (ui c))).

(** Result and error are not both present. *)
Definition atMostOne (s : State) : bool :=
  negb (isSome (analysisResult s) && isSome (error s)).

(** Exactly one of result and error is present. *)
Definition exactlyOne (s : State) : bool :=
  xorb (isSome (analysisResult s)) (isSome (error s)).

(** [analyzeVideoFrames] was handed at least one frame. *)
Definition callHasFrames (e : Effect) : bool :=
  match e with
  | AnalyzeVideoFrames frames => negb (length frames =? 0)%nat
  | _ => true
  end.

(** The events that call [handleFileUpload]. *)
Definition isUpload (e : Event) : bool :=
  match e with
  | FileUploaded _ => true
  | _ => false
  end.

(** [es] is played from [c] with the loading flag raised before each of
    its events: an in-flight period. *)
Fixpoint loadingDuring (es : list Event) (c : Config) : bool :=
  match es with
  | [] => true
  | e :: es' =>
      isLoading (ui c) &&
      match step c e with
      | Some c' => loadingDuring es' c'
      | None => false
      end
  end.


(** The extractor's progress callbacks, one after the other. *)
Definition reportAll (ps : list Q) (c : Config) : Config :=
  fold_left (fun c' p => exec (onProgress p) c') ps c.

(** Two configurations that differ at most in [extractionProgress]. *)
Definition sameButProgress (c c' : Config) : Prop :=
  videoFile (ui c') = videoFile (ui c)
  /\ videoUrl (ui c') = videoUrl (ui c)
  /\ analysisResult (ui c') = analysisResult (ui c)
  /\ isLoading (ui c') = isLoading (ui c)
  /\ loadingMessage (ui c') = loadingMessage (ui c)
  /\ error (ui c') = error (ui c)
  /\ frameCount (ui c') = frameCount (ui c)
  /\ pending c' = pending c
  /\ effects c' = effects c.

(** What every configuration the controller can get into satisfies,
    whatever [UploadZone] does. *)
Record Inv (c : Config) : Prop := mkInv {
  inv_flag : isLoading (ui c) = inFlight c;
  inv_message : isLoading (ui c) = false -> loadingMessage (ui c) = "";
  inv_file : isLoading (ui c) = true -> isSome (videoFile (ui c)) = true;
  inv_result_file :
    isSome (analysisResult (ui c)) = true -> isSome (videoFile (ui c)) = true;
  inv_no_result : isLoading (ui c) = true -> analysisResult (ui c) = None;
  inv_count : (5 <= frameCount (ui c) <= 50)%Z;
  inv_calls : forallb callHasFrames (effects c) = true;
  inv_error :
    isLoading (ui c) = true -> isSome (error (ui c)) = true ->
    error (ui c) = Some invalidUploadMessage;
  inv_both :
    isSome (analysisResult (ui c)) = true -> isSome (error (ui c)) = true ->
    error (ui c) = Some invalidUploadMessage
}.

(** What holds in addition when [UploadZone] forwards nothing while a run
    is in flight: no error is shown during the run. *)
Definition Quiet (c : Config) : Prop :=
  isLoading (ui c) = true -> error (ui c) = None.

(** *** What [App] renders (App.tsx, lines 73-126) *)

(** [x && <Component/>] for a [string | null]: null and the empty string
    render nothing. *)
Definition truthy (o : option string) : bool :=
  match o with
  | Some (String _ _) => true
  | _ => false
  end.

(** The range input of lines 89-99. *)
Record SliderProps := mkSliderProps {
  slider_min : Z;
  slider_max : Z;
  slider_step : Z;
  slider_value : Z;
  slider_disabled : bool
}.

(** The props handed to [AnalysisDisplay], lines 113-120. *)
Record AnalysisDisplayProps := mkAnalysisDisplayProps {
  display_analysis : option AnalysisResult;
  display_isLoading : bool;
  display_loadingMessage : string;
  display_error : option string;
  display_hasVideo : bool;
  display_extractionProgress : Q
}.

(** The part of the tree that depends on the state: the [isLoading] prop of
    [UploadZone], the player (with its URL) when it is rendered, the slider
    when it is rendered, the analyze button (with its [disabled] prop) when
    it is rendered, and the display's props. *)
Record View := mkView {
  uploadZone_isLoading : bool;
  videoPlayer : option string;
  frameCountSlider : option SliderProps;
  analyzeButton : option bool;
  analysisDisplay : AnalysisDisplayProps
}.

Definition render (s : State) : View :=
  {| uploadZone_isLoading := isLoading s;
     videoPlayer := if truthy (videoUrl s) then videoUrl s else None;
     frameCountSlider :=
       if isSome (videoFile s)
       then Some (mkSliderProps 5 50 1 (frameCount s) (isLoading s))
       else None;
     analyzeButton :=
       if isSome (videoFile s) && negb (isLoading s)
       then Some (isLoading s)
       else None;
     analysisDisplay :=
       {| display_analysis := analysisResult s;
          display_isLoading := isLoading s;
          display_loadingMessage := loadingMessage s;
          display_error := error s;
          display_hasVideo := isSome (videoFile s);
          display_extractionProgress := extractionProgress s |} |}.




Definition isSliderChange (e : Event) : bool :=
  match e with
  | SliderChanged _ => true
  | _ => false
  end.

(** *** The log of calls *)

Definition isExtractCall (e : Effect) : bool :=
  match e with
  | ExtractFramesFromVideo _ _ => true
  | _ => false
  end.

Definition isAnalyzeCall (e : Effect) : bool :=
  match e with
  | AnalyzeVideoFrames _ => true
  | _ => false
  end.

Definition countCalls (f : Effect -> bool) (efs : list Effect) : nat :=
  length (filter f efs).

(** [extractFramesFromVideo] was handed a file with a video MIME type and
    a count within the slider's range. *)
Definition extractCallInRange (e : Effect) : bool :=
  match e with
  | ExtractFramesFromVideo file count =>
      prefix "video/" (type file) && (5 <=? count)%Z && (count <=? 50)%Z
  | _ => true
  end.

(** The file of the latest extraction call. *)
Definition lastExtracted (efs : list Effect) : option File :=
  fold_left
    (fun acc e =>
       match e with
       | ExtractFramesFromVideo file _ => Some file
       | _ => acc
       end)
    efs None.

(** The loading message that goes with each phase of a run. *)
Definition phaseMessage (p : Pending) : string :=
  match p with
  | NoRun => ""
  | AwaitExtract => extractingMessage
  | AwaitAnalyze => sendingMessage
  end.

(** One more extraction than analyses has been called for while the
    extraction of the pending run is awaited. *)
Definition awaitedExtractions (p : Pending) : nat :=
  match p with
  | AwaitExtract => 1
  | _ => 0
  end.

(** The last progress report of a run, 0 when there was none. *)
Definition lastProgress (ps : list Q) : Q :=
  last ps 0.

(** The messages the controller can put into [error]. *)
Definition errorFromController (o : option string) : Prop :=
  o = None
  \/ o = Some invalidUploadMessage
  \/ o = Some noFileMessage
  \/ exists m, o = Some ("Analysis Failed: " ++ m)%string.

(** More of what every configuration the controller can get into
    satisfies, whatever [UploadZone] does. *)
Record Inv2 (c : Config) : Prop := mkInv2 {
  inv_mime :
    forall file, videoFile (ui c) = Some file ->
    prefix "video/" (type file) = true;
  inv_url : videoUrl (ui c) = option_map createObjectURL (videoFile (ui c));
  inv_extract_calls : forallb extractCallInRange (effects c) = true;
  inv_phase_message : loadingMessage (ui c) = phaseMessage (pending c);
  inv_error_vocabulary : errorFromController (error (ui c));
  inv_no_file_error :
    error (ui c) = Some noFileMessage -> videoFile (ui c) = None;
  inv_call_counts :
    (countCalls isAnalyzeCall (effects c) + awaitedExtractions (pending c)
     <= countCalls isExtractCall (effects c))%nat
}.

(** With an [UploadZone] that forwards nothing while a run is in flight:
    during a run and while a result is shown, the latest extraction was
    called on the selected file. *)
Definition Current (c : Config) : Prop :=
  isLoading (ui c) = true \/ isSome (analysisResult (ui c)) = true ->
  lastExtracted (effects c) = videoFile (ui c).


(** Case analysis of a transition: which handler section ran. *)
Ltac step_cases H :=
  unfold step in H;
  repeat match type of H with
    | match ?e with _ => _ end = Some _ => destruct e eqn:?; try discriminate H
    | (if ?b then _ else _) = Some _ => destruct b eqn:?; try discriminate H
    end;
  injection H as H; subst.

Ltac open_handlers :=
  unfold commit, suspend, exec, handleFileUpload, handleAnalyze_enter,
    handleAnalyze_extracted, handleAnalyze_analyzed, handleAnalyze_rejected,
    handleAnalyze_catch, handleAnalyze_finally, onProgress, analyzeAvailable,
    sliderAccepts, inFlight in *.

Ltac split_branches :=
  repeat match goal with
    | |- context [if ?b then _ else _] => destruct b eqn:?
    | |- context [match videoFile ?s with _ => _ end] =>
        destruct (videoFile s) eqn:?
    end.

Ltac use_premises :=
  repeat match goal with
    | Hs : ?x = ?x -> _ |- _ => specialize (Hs eq_refl)
    end.

(** ** The invariant *)

Lemma forallb_snoc {A} (f : A -> bool) l x :
  forallb f (l ++ [x]) = forallb f l && f x.
Proof. rewrite forallb_app. simpl. now rewrite andb_true_r. Qed.

Lemma Inv_initial : Inv initialConfig.
Proof.
  constructor; simpl; try reflexivity; try discriminate; try lia.
Qed.

Lemma Inv_step c e c' : Inv c -> step c e = Some c' -> Inv c'.
Proof.
  destruct c as [[vf vu ar il lm er fc ep] p efs].
  intros [Hflag Hmsg Hfile Hrf Hnr Hcnt Hcalls Herr Hboth] H.
  step_cases H; open_handlers;
    try match goal with
      | |- context [prefix ?a ?b] => destruct (prefix a b) eqn:?
      | |- context [length ?l] => destruct l
      end;
    cbn -[append] in *; subst;
    destruct vf, ar; try destruct il; cbn -[append] in *;
    use_premises; try discriminate;
    (constructor; cbn -[append]; intros;
     rewrite ?forallb_snoc, ?Hcalls; cbn -[append];
     try reflexivity; try discriminate; try lia; auto).
Qed.

Lemma run_app es1 : forall es2 c,
  run (es1 ++ es2) c =
  match run es1 c with
  | Some c' => run es2 c'
  | None => None
  end.
Proof.
  induction es1 as [|e es1 IH]; intros es2 c; simpl; [reflexivity|].
  destruct (step c e); [apply IH | reflexivity].
Qed.

Lemma run_Inv es : forall c c', Inv c -> run es c = Some c' -> Inv c'.
Proof.
  induction es as [|e es IH]; intros c c' I H; simpl in H.
  - now injection H as <-.
  - destruct (step c e) as [c1|] eqn:S; [|discriminate].
    eapply IH; [eapply Inv_step; eassumption | exact H].
Qed.

Lemma reachable_Inv es c : run es initialConfig = Some c -> Inv c.
Proof. apply run_Inv, Inv_initial. Qed.

Lemma calls_have_frames efs :
  forallb callHasFrames efs = true -> ~ In (AnalyzeVideoFrames []) efs.
Proof.
  intros H Hin. rewrite forallb_forall in H.
  specialize (H _ Hin). discriminate H.
Qed.

(** ** The progress callbacks *)

Lemma reportAll_same ps : forall c, sameButProgress c (reportAll ps c).
Proof.
  unfold reportAll.
  induction ps as [|p ps IH]; intros c; simpl.
  - repeat split.
  - specialize (IH (exec (onProgress p) c)).
    unfold sameButProgress in *. simpl in IH. tauto.
Qed.

Lemma run_progress ps : forall c rest,
  pending c = AwaitExtract ->
  run (map ProgressReported ps ++ rest) c = run rest (reportAll ps c).
Proof.
  induction ps as [|p ps IH]; intros c rest P; simpl; [reflexivity|].
  unfold step. rewrite P. apply IH. reflexivity.
Qed.

Lemma loadingDuring_progress ps : forall c rest,
  pending c = AwaitExtract -> isLoading (ui c) = true ->
  loadingDuring (map ProgressReported ps ++ rest) c
  = loadingDuring rest (reportAll ps c).
Proof.
  induction ps as [|p ps IH]; intros c rest P L; simpl; [reflexivity|].
  rewrite L. unfold step. rewrite P. simpl. apply IH; reflexivity.
Qed.

(** ** A whole run of [handleAnalyze] *)

Lemma scripted_run c f sc :
  pending c = NoRun -> isLoading (ui c) = false -> videoFile (ui c) = Some f ->
  exists c1 c',
    step c AnalyzeTriggered = Some c1
    /\ pending c1 = AwaitExtract
    /\ isLoading (ui c1) = true
    /\ effects c1 = effects c ++ [ExtractFramesFromVideo f (frameCount (ui c))]
    /\ loadingDuring (tl (runEvents sc)) c1 = true
    /\ run (tl (runEvents sc)) c1 = Some c'
    /\ pending c' = NoRun
    /\ isLoading (ui c') = false
    /\ (isDone c' = true \/ isFailed c' = true)
    /\ videoFile (ui c') = videoFile (ui c)
    /\ videoUrl (ui c') = videoUrl (ui c)
    /\ frameCount (ui c') = frameCount (ui c).
Proof.
  intros P L V.
  assert (S1 : step c AnalyzeTriggered
               = Some (commit (handleAnalyze_enter (ui c)) c))
    by (unfold step, analyzeAvailable; rewrite P, L; reflexivity).
  unfold handleAnalyze_enter in S1. rewrite V in S1.
  unfold commit, suspend, exec in S1. simpl in S1.
  match type of S1 with _ = Some ?x => set (c1 := x) in * end.
  exists c1.
  destruct sc as [ps ex an]. unfold runEvents; simpl tl.
  rewrite run_progress, loadingDuring_progress by reflexivity.
  destruct (reportAll_same ps c1) as (Hf & Hu & Hr & Hl & Hm & He & Hc & Hp & Hx).
  destruct (reportAll ps c1) as [[vf' vu' ar' il' lm' er' fc' ep'] p' efs'].
  simpl in Hf, Hu, Hr, Hl, Hm, He, Hc, Hp, Hx. subst.
  destruct ex as [[|fr frs]|err]; [| destruct an as [r|err] |];
    (eexists; repeat split; try reflexivity; try exact S1;
     first [left; reflexivity | right; reflexivity]).
Qed.

(** ** The upload handler *)

(** C5: for a file whose MIME type does not start with "video/",
    [handleFileUpload] leaves [videoFile] and [videoUrl] as they were and
    sets the invalid-upload message, in whatever configuration the upload
    arrives; an upload event, when [UploadZone] lets it through, does
    exactly that. *)
Theorem C5_invalid_upload_keeps_selection c file :
  prefix "video/" (type file) = false ->
  let c' := exec (handleFileUpload file) c in
  videoFile (ui c') = videoFile (ui c)
  /\ videoUrl (ui c') = videoUrl (ui c)
  /\ error (ui c') = Some "Please upload a valid video file."
  /\ (forall c'', step c (FileUploaded file) = Some c'' -> c'' = c').
Proof.
  intros Hmime. unfold handleFileUpload. rewrite Hmime. simpl.
  repeat split.
  intros c'' H. step_cases H.
  unfold handleFileUpload. now rewrite Hmime.
Qed.

(** C6: for a file whose MIME type starts with "video/", uploaded while no
    run is in flight, [handleFileUpload] stores the file, stores the preview
    URL made for it, and clears both the result and the error: the
    controller is in FileSelected. *)
Theorem C6_valid_upload_selects_file c file :
  prefix "video/" (type file) = true ->
  inFlight c = false -> isLoading (ui c) = false ->
  let c' := exec (handleFileUpload file) c in
  videoFile (ui c') = Some file
  /\ videoUrl (ui c') = Some (createObjectURL file)
  /\ analysisResult (ui c') = None
  /\ error (ui c') = None
  /\ isFileSelected c' = true
  /\ (forall c'', step c (FileUploaded file) = Some c'' -> c'' = c').
Proof.
  intros Hmime Hrun Hload. unfold handleFileUpload. rewrite Hmime.
  repeat split.
  - unfold isFileSelected, inFlight in *. simpl. rewrite Hload.
    now destruct (pending c).
  - intros c'' H. step_cases H.
    unfold handleFileUpload. now rewrite Hmime.
Qed.

(** ** The analyze handler *)

(** C4: in every configuration the controller can get into that has no
    selected file, triggering [handleAnalyze] sets the precondition message
    and returns: the loading flag was false and stays false, no run is
    pending, no call is issued, and every other cell keeps its value. *)
Theorem C4_analyze_without_file es c :
  run es initialConfig = Some c ->
  videoFile (ui c) = None ->
  exists c',
    step c AnalyzeTriggered = Some c'
    /\ error (ui c') = Some "No video file selected."
    /\ isLoading (ui c) = false
    /\ isLoading (ui c') = false
    /\ videoFile (ui c') = None
    /\ videoUrl (ui c') = videoUrl (ui c)
    /\ analysisResult (ui c') = analysisResult (ui c)
    /\ frameCount (ui c') = frameCount (ui c)
    /\ extractionProgress (ui c') = extractionProgress (ui c)
    /\ loadingMessage (ui c') = loadingMessage (ui c)
    /\ pending c' = NoRun
    /\ effects c' = effects c.
Proof.
  intros R V. pose proof (reachable_Inv _ _ R) as I.
  assert (L : isLoading (ui c) = false).
  { destruct (isLoading (ui c)) eqn:E; [|reflexivity].
    pose proof (inv_file _ I E) as F. rewrite V in F. discriminate F. }
  assert (P : pending c = NoRun).
  { pose proof (inv_flag _ I) as F. rewrite L in F. unfold inFlight in F.
    destruct (pending c); [reflexivity | discriminate F | discriminate F]. }
  eexists. split.
  - unfold step, analyzeAvailable, handleAnalyze_enter.
    rewrite P, L, V. reflexivity.
  - simpl. rewrite V, L. repeat split.
Qed.

(** C2: [analyzeVideoFrames] is never called with zero frames, and when the
    extraction of a pending run resolves to an empty frame sequence the run
    ends there as a failure: the error is set, no result is produced, the
    loading flag is cleared, and the only call made is the console report of
    the error. *)
Theorem C2_zero_frames_is_failure es c :
  run es initialConfig = Some c ->
  ~ In (AnalyzeVideoFrames []) (effects c)
  /\ (pending c = AwaitExtract ->
      exists c',
        step c (ExtractionResolved []) = Some c'
        /\ isFailed c' = true
        /\ analysisResult (ui c') = None
        /\ error (ui c') = Some ("Analysis Failed: " ++ noFramesMessage)%string
        /\ effects c' = effects c ++ [ConsoleError (ErrorInstance noFramesMessage)]
        /\ ~ In (AnalyzeVideoFrames []) (effects c')).
Proof.
  intros R. pose proof (reachable_Inv _ _ R) as I.
  split; [apply calls_have_frames, (inv_calls _ I)|].
  intros P.
  assert (S : step c (ExtractionResolved [])
              = Some (commit (handleAnalyze_extracted []) c))
    by (unfold step; now rewrite P).
  eexists; split; [exact S|].
  pose proof (Inv_step _ _ _ I S) as I'.
  assert (N : analysisResult (ui c) = None).
  { apply (inv_no_result _ I). rewrite (inv_flag _ I).
    unfold inFlight. now rewrite P. }
  unfold isFailed, inFlight. simpl. rewrite N.
  repeat split.
  apply calls_have_frames, (inv_calls _ I').
Qed.

(** C3 (amended): when a pending run faults, whether the awaited extraction
    or analysis rejects or the empty-frames error is thrown, the error shown
    is "Analysis Failed: " followed by the fault's message when the fault is
    an [Error], and followed by "An unknown error occurred during
    analysis." when it is any other thrown value; the loading flag and the
    loading message are cleared and [analysisResult] is null. *)
Theorem C3_fault_is_reported_amended es c err :
  run es initialConfig = Some c ->
  let shown :=
    ("Analysis Failed: " ++
     match err with
     | ErrorInstance m => m
     | NonError _ => "An unknown error occurred during analysis."
     end)%string in
  let failedWith msg c' :=
    error (ui c') = Some msg
    /\ isLoading (ui c') = false
    /\ loadingMessage (ui c') = ""
    /\ analysisResult (ui c') = None
    /\ pending c' = NoRun in
  (pending c = AwaitExtract ->
   exists c', step c (ExtractionRejected err) = Some c' /\ failedWith shown c')
  /\ (pending c = AwaitAnalyze ->
      exists c', step c (AnalysisRejected err) = Some c' /\ failedWith shown c')
  /\ (pending c = AwaitExtract ->
      exists c',
        step c (ExtractionResolved []) = Some c'
        /\ failedWith ("Analysis Failed: " ++ noFramesMessage)%string c').
Proof.
  intros R shown failedWith. pose proof (reachable_Inv _ _ R) as I.
  assert (N : inFlight c = true -> analysisResult (ui c) = None).
  { intros F. apply (inv_no_result _ I). now rewrite (inv_flag _ I). }
  unfold inFlight in N.
  repeat split; intros P; rewrite P in N; specialize (N eq_refl);
    (eexists; split; [unfold step; rewrite P; reflexivity|]);
    unfold failedWith, shown; simpl; rewrite N;
    destruct err; repeat split.
Qed.

(** C10: in every configuration the controller can get into, a lowered
    loading flag comes with an empty loading message. *)
Theorem C10_message_only_while_loading es c :
  run es initialConfig = Some c ->
  isLoading (ui c) = false ->
  loadingMessage (ui c) = "".
Proof.
  intros R. exact (inv_message _ (reachable_Inv _ _ R)).
Qed.

(** ** The loading flag *)

(** C7: in every configuration the controller can get into, the loading
    flag is true exactly when a run is suspended in extraction or in
    analysis.  A run started on a selected file raises the flag in the
    section that issues the extraction call, ahead of that call; the flag is
    up before every later event of the run; and the run ends, in Done or in
    Failed, with the flag lowered. *)
Theorem C7_loading_flag_tracks_run es c :
  run es initialConfig = Some c ->
  isLoading (ui c) = inFlight c
  /\ (forall e c',
        step c e = Some c' -> inFlight c = true -> inFlight c' = false ->
        isLoading (ui c') = false)
  /\ (forall file sc,
        pending c = NoRun -> videoFile (ui c) = Some file ->
        exists c1 c',
          (exists ks,
             fst (handleAnalyze_enter (ui c))
             = setIsLoading true
                 :: ks ++ [call (ExtractFramesFromVideo file (frameCount (ui c)))])
          /\ step c AnalyzeTriggered = Some c1
          /\ isLoading (ui c1) = true
          /\ pending c1 = AwaitExtract
          /\ loadingDuring (tl (runEvents sc)) c1 = true
          /\ run (tl (runEvents sc)) c1 = Some c'
          /\ isLoading (ui c') = false
          /\ pending c' = NoRun
          /\ (isDone c' = true \/ isFailed c' = true)).
Proof.
  intros R. pose proof (reachable_Inv _ _ R) as I.
  split; [exact (inv_flag _ I)|]. split.
  - intros e c' S _ F. rewrite (inv_flag _ (Inv_step _ _ _ I S)). exact F.
  - intros file sc P V.
    assert (L : isLoading (ui c) = false).
    { rewrite (inv_flag _ I). unfold inFlight. now rewrite P. }
    destruct (scripted_run c file sc P L V)
      as (c1 & c' & S1 & P1 & L1 & _ & D & R' & P' & L' & T & _).
    exists c1, c'. repeat split; try assumption.
    unfold handleAnalyze_enter. rewrite V. simpl.
    now exists [ setError None; setAnalysisResult None;
                 setExtractionProgress 0; setLoadingMessage extractingMessage ].
Qed.

(** C8: in a configuration with the loading flag up every frame-count
    change is rejected, and over any period played with the flag up before
    each of its events (which therefore contains no frame-count change)
    [frameCount] at the end equals [frameCount] at the start. *)
Theorem C8_frame_count_frozen_in_flight es c c' :
  isLoading (ui c) = true ->
  loadingDuring es c = true ->
  run es c = Some c' ->
  (forall value, step c (SliderChanged value) = None)
  /\ (forall value, ~ In (SliderChanged value) es)
  /\ frameCount (ui c') = frameCount (ui c).
Proof.
  intros L D R. split.
  { intros value. unfold step, sliderAccepts. rewrite L.
    now destruct (videoFile (ui c)). }
  clear L. revert c D R.
  induction es as [|e es IH]; intros c D R; simpl in *.
  - injection R as <-. split; [tauto | reflexivity].
  - apply andb_prop in D as [L D].
    destruct (step c e) as [c1|] eqn:S; [|discriminate].
    destruct (IH _ D R) as [Hin Hfc].
    assert (K : (forall value, e <> SliderChanged value)
                /\ frameCount (ui c1) = frameCount (ui c)).
    { clear IH D R Hin Hfc.
      split.
      - intros value ->. unfold step, sliderAccepts in S. rewrite L in S.
        destruct (videoFile (ui c)); discriminate S.
      - destruct e; try (step_cases S; open_handlers; split_branches; reflexivity).
        unfold step, sliderAccepts in S. rewrite L in S.
        destruct (videoFile (ui c)); discriminate S. }
    destruct K as [Kne Kfc]. split.
    + intros value [E|E]; [exact (Kne _ E) | exact (Hin _ E)].
    + now rewrite Hfc.
Qed.

(** ** The selected file *)

(** Events other than an upload leave the selected file and its preview
    URL alone. *)
Lemma step_keeps_selection c e c' :
  isUpload e = false -> step c e = Some c' ->
  videoFile (ui c') = videoFile (ui c) /\ videoUrl (ui c') = videoUrl (ui c).
Proof.
  intros U S. destruct e; try discriminate U;
    step_cases S; open_handlers; split_branches; simpl; auto.
Qed.

Lemma run_keeps_selection es : forall c c',
  forallb (fun e => negb (isUpload e)) es = true ->
  run es c = Some c' ->
  videoFile (ui c') = videoFile (ui c) /\ videoUrl (ui c') = videoUrl (ui c).
Proof.
  induction es as [|e es IH]; intros c c' U R; simpl in *.
  - injection R as <-. auto.
  - apply andb_prop in U as [Ue U].
    destruct (step c e) as [c1|] eqn:S; [|discriminate].
    apply negb_true_iff in Ue.
    destruct (step_keeps_selection _ _ _ Ue S) as [<- <-].
    now apply IH.
Qed.

(** C9: a run of [handleAnalyze] leaves [videoFile] and [videoUrl] as it
    found them.  Started with no run pending, every run on a selected file
    completes, whatever extraction and analysis do, with both cells
    unchanged, and the analysis can then be triggered again on the same
    file; without a file the handler returns with both unchanged; and no
    sequence of events without an upload changes either cell. *)
Theorem C9_run_keeps_selection c :
  pending c = NoRun -> isLoading (ui c) = false ->
  (forall file sc,
     videoFile (ui c) = Some file ->
     exists c',
       run (runEvents sc) c = Some c'
       /\ videoFile (ui c') = videoFile (ui c)
       /\ videoUrl (ui c') = videoUrl (ui c)
       /\ exists c'',
            step c' AnalyzeTriggered = Some c''
            /\ pending c'' = AwaitExtract
            /\ effects c''
               = effects c' ++ [ExtractFramesFromVideo file (frameCount (ui c))])
  /\ (videoFile (ui c) = None ->
      exists c',
        run [AnalyzeTriggered] c = Some c'
        /\ videoFile (ui c') = videoFile (ui c)
        /\ videoUrl (ui c') = videoUrl (ui c))
  /\ (forall es c',
        forallb (fun e => negb (isUpload e)) es = true ->
        run es c = Some c' ->
        videoFile (ui c') = videoFile (ui c)
        /\ videoUrl (ui c') = videoUrl (ui c)).
Proof.
  intros P L. split; [|split].
  - intros file sc V.
    destruct (scripted_run c file sc P L V)
      as (c1 & c' & S1 & _ & _ & _ & _ & R' & P' & L' & _ & V' & U' & F').
    exists c'. split; [|split; [exact V' | split; [exact U'|]]].
    + unfold runEvents in *. simpl in *. now rewrite S1.
    + rewrite V in V'.
      destruct (scripted_run c' file sc P' L' V')
        as (c2 & _ & S2 & P2 & _ & E2 & _).
      exists c2. rewrite <- F'. auto.
  - intros V. simpl. unfold step, analyzeAvailable, handleAnalyze_enter.
    rewrite P, L, V. simpl. eexists; split; [reflexivity|]. simpl.
    rewrite V. auto.
  - intros es c'. apply run_keeps_selection.
Qed.

(** ** Result and error *)

Section Gated.

(** [UploadZone] hands over no file while [isLoading] is true. *)
Hypothesis uploadGated : uploadZoneForwards true = false.

Lemma Quiet_step c e c' : Quiet c -> step c e = Some c' -> Quiet c'.
Proof.
  unfold Quiet. intros Q S.
  destruct (isLoading (ui c)) eqn:L.
  - specialize (Q eq_refl).
    destruct e.
    1: { unfold step in S. rewrite L, uploadGated in S. discriminate S. }
    2: { unfold step, analyzeAvailable in S. rewrite L in S.
         destruct (pending c); discriminate S. }
    all: step_cases S; open_handlers; split_branches;
      simpl in *; try discriminate; intros; congruence.
  - clear Q.
    destruct e; step_cases S; open_handlers; split_branches;
      simpl in *; intros; congruence.
Qed.

Lemma run_Quiet es : forall c c', Quiet c -> run es c = Some c' -> Quiet c'.
Proof.
  induction es as [|e es IH]; intros c c' Q R; simpl in R.
  - now injection R as <-.
  - destruct (step c e) as [c1|] eqn:S; [|discriminate].
    eapply IH; [eapply Quiet_step; eassumption | exact R].
Qed.

(** C1 (amended): in every configuration the controller can get into, a
    run that ends leaves exactly one of [analysisResult] and [error]
    non-null; an upload of a video file and the start of a run on a selected
    file leave both null; both are null throughout a run; and result and
    error are non-null together only with the invalid-upload message as the
    error, set by an upload of a non-video file over a result. *)
Theorem C1_result_error_discipline_amended es c :
  run es initialConfig = Some c ->
  (forall e c',
     step c e = Some c' -> inFlight c = true -> inFlight c' = false ->
     exactlyOne (ui c') = true)
  /\ (forall file c',
        prefix "video/" (type file) = true ->
        step c (FileUploaded file) = Some c' ->
        analysisResult (ui c') = None /\ error (ui c') = None)
  /\ (forall c',
        isSome (videoFile (ui c)) = true ->
        step c AnalyzeTriggered = Some c' ->
        analysisResult (ui c') = None /\ error (ui c') = None)
  /\ (inFlight c = true ->
      analysisResult (ui c) = None /\ error (ui c) = None)
  /\ (atMostOne (ui c) = false ->
      error (ui c) = Some "Please upload a valid video file.").
Proof.
  intros R. pose proof (reachable_Inv _ _ R) as I.
  assert (Q : Quiet c).
  { refine (run_Quiet _ _ _ _ R). intros L. discriminate L. }
  assert (B : inFlight c = true ->
              analysisResult (ui c) = None /\ error (ui c) = None).
  { intros F. rewrite <- (inv_flag _ I) in F.
    split; [exact (inv_no_result _ I F) | exact (Q F)]. }
  split; [|split; [|split; [|split]]].
  - intros e c' S F F'. destruct (B F) as [Br Be].
    unfold exactlyOne.
    destruct e; step_cases S; open_handlers; split_branches;
      simpl in *; try discriminate; try congruence;
      rewrite ?Br, ?Be; reflexivity.
  - intros file c' M S. step_cases S. unfold handleFileUpload.
    rewrite M. split; reflexivity.
  - intros c' V S. step_cases S. open_handlers.
    destruct (videoFile (ui c)); [|discriminate V]. split; reflexivity.
  - exact B.
  - unfold atMostOne. intros A. apply negb_false_iff, andb_prop in A.
    destruct A as [Ar Ae]. exact (inv_both _ I Ar Ae).
Qed.

End Gated.

(** ** More invariants of the controller *)

Lemma countCalls_snoc f efs e :
  countCalls f (efs ++ [e]) = (countCalls f efs + (if f e then 1 else 0))%nat.
Proof.
  unfold countCalls. rewrite filter_app, length_app. simpl.
  now destruct (f e).
Qed.

Lemma lastExtracted_snoc efs e :
  lastExtracted (efs ++ [e])
  = match e with
    | ExtractFramesFromVideo file _ => Some file
    | _ => lastExtracted efs
    end.
Proof. unfold lastExtracted. now rewrite fold_left_app. Qed.

Lemma analysis_failed_not_no_file m :
  ("Analysis Failed: " ++ m)%string <> noFileMessage.
Proof. discriminate. Qed.

Lemma Inv2_initial : Inv2 initialConfig.
Proof.
  constructor; simpl; try reflexivity; try discriminate; try lia.
  now left.
Qed.

Lemma Inv2_step c e c' : Inv c -> Inv2 c -> step c e = Some c' -> Inv2 c'.
Proof.
  destruct c as [[vf vu ar il lm er fc ep] p efs].
  intros [Hflag _ _ _ _ Hcnt _ _ _] [Hmime Hurl Hcalls Hmsg Hvoc Hnf Hcc] H.
  step_cases H; open_handlers;
    try match goal with
      | |- context [prefix ?a ?b] => destruct (prefix a b) eqn:?
      | |- context [length ?l] => destruct l
      end;
    cbn -[append countCalls] in *; subst;
    destruct vf; cbn -[append countCalls] in *;
    (constructor; cbn -[append countCalls];
     rewrite ?forallb_snoc, ?countCalls_snoc, ?Hcalls; cbn -[append countCalls];
     try reflexivity; try assumption; try lia;
     match goal with
     | |- forall _ : File, _ = _ -> _ =>
         let E := fresh in
         intros ? E; first [discriminate E | injection E as <-; auto]
     | |- errorFromController _ =>
         first [ now left
               | now (right; left)
               | now (right; right; left)
               | right; right; right; eexists; reflexivity ]
     | |- _ = Some noFileMessage -> _ =>
         let E := fresh in
         intros E;
         first [ discriminate E
               | injection E as E; now apply analysis_failed_not_no_file in E
               | auto ]
     | |- _ && _ = true =>
         rewrite Hmime by reflexivity; simpl;
         apply andb_true_intro; split; apply Z.leb_le; lia
     | |- (_ <= _)%nat => simpl in *; lia
     end).
Qed.

Lemma run_Inv2 es : forall c c',
  Inv c -> Inv2 c -> run es c = Some c' -> Inv2 c'.
Proof.
  induction es as [|e es IH]; intros c c' I I2 R; simpl in R.
  - now injection R as <-.
  - destruct (step c e) as [c1|] eqn:S; [|discriminate].
    eapply IH; [eapply Inv_step | eapply Inv2_step | exact R]; eassumption.
Qed.

Lemma reachable_Inv2 es c : run es initialConfig = Some c -> Inv2 c.
Proof. apply run_Inv2; [apply Inv_initial | apply Inv2_initial]. Qed.

(** X1: in every configuration the controller can get into, the frame
    count lies between 5 and 50, and a rendered slider shows a value within
    its own bounds. *)
Theorem frame_count_within_slider_range es c :
  run es initialConfig = Some c ->
  (5 <= frameCount (ui c) <= 50)%Z
  /\ (forall p,
        frameCountSlider (render (ui c)) = Some p ->
        (slider_min p <= slider_value p <= slider_max p)%Z).
Proof.
  intros R. pose proof (inv_count _ (reachable_Inv _ _ R)) as B.
  split; [exact B|].
  intros p. unfold render. simpl.
  destruct (isSome (videoFile (ui c))); [|discriminate].
  intros [= <-]. exact B.
Qed.

(** X2: every call of [extractFramesFromVideo] the controller has made was
    given a file whose MIME type starts with "video/" and a frame count
    between 5 and 50. *)
Theorem extraction_called_on_videos_within_range es c file count :
  run es initialConfig = Some c ->
  In (ExtractFramesFromVideo file count) (effects c) ->
  prefix "video/" (type file) = true /\ (5 <= count <= 50)%Z.
Proof.
  intros R Hin.
  pose proof (inv_extract_calls _ (reachable_Inv2 _ _ R)) as A.
  rewrite forallb_forall in A. specialize (A _ Hin). simpl in A.
  apply andb_prop in A as [A Hhi]. apply andb_prop in A as [Hm Hlo].
  apply Z.leb_le in Hlo, Hhi. auto.
Qed.

(** X3: the selected file always has a video MIME type, and the preview
    URL is present exactly when a file is selected: it is the URL made for
    that file. *)
Theorem preview_belongs_to_selected_video es c :
  run es initialConfig = Some c ->
  videoUrl (ui c) = option_map createObjectURL (videoFile (ui c))
  /\ (forall file,
        videoFile (ui c) = Some file -> prefix "video/" (type file) = true).
Proof.
  intros R. pose proof (reachable_Inv2 _ _ R) as I2.
  split; [exact (inv_url _ I2) | exact (inv_mime _ I2)].
Qed.

Lemma step_keeps_a_file c e c' :
  step c e = Some c' ->
  isSome (videoFile (ui c)) = true -> isSome (videoFile (ui c')) = true.
Proof.
  intros S. destruct e; step_cases S; open_handlers; split_branches;
    simpl; intros V; try discriminate V; auto;
    match goal with E : videoFile _ = Some _ |- _ => now rewrite E end.
Qed.

(** X4: no event deselects: once a file is selected, a file is selected in
    every later configuration. *)
Theorem selection_is_never_cleared es : forall c c',
  run es c = Some c' ->
  isSome (videoFile (ui c)) = true ->
  isSome (videoFile (ui c')) = true.
Proof.
  induction es as [|e es IH]; intros c c' R V; simpl in R.
  - now injection R as <-.
  - destruct (step c e) as [c1|] eqn:S; [|discriminate].
    apply (IH _ _ R). exact (step_keeps_a_file _ _ _ S V).
Qed.

(** X5: the loading message is determined by where the run is: empty with
    no run pending, the extraction text while extraction is awaited, the
    analysis text while analysis is awaited. *)
Theorem loading_message_follows_phase es c :
  run es initialConfig = Some c ->
  (pending c = NoRun -> loadingMessage (ui c) = "")
  /\ (pending c = AwaitExtract ->
      loadingMessage (ui c) = "Extracting key frames from video...")
  /\ (pending c = AwaitAnalyze ->
      loadingMessage (ui c) = "Sending frames to Gemini for analysis...").
Proof.
  intros R. pose proof (inv_phase_message _ (reachable_Inv2 _ _ R)) as M.
  repeat split; intros P; rewrite P in M; exact M.
Qed.

(** X6: the error cell only ever holds null, the invalid-upload message,
    the no-file message, or a text that starts with "Analysis Failed: ". *)
Theorem error_is_one_of_the_controller_messages es c :
  run es initialConfig = Some c ->
  error (ui c) = None
  \/ error (ui c) = Some "Please upload a valid video file."
  \/ error (ui c) = Some "No video file selected."
  \/ exists m, error (ui c) = Some ("Analysis Failed: " ++ m)%string.
Proof.
  intros R. exact (inv_error_vocabulary _ (reachable_Inv2 _ _ R)).
Qed.

(** X7: [analyzeVideoFrames] has never been called more often than
    [extractFramesFromVideo], and while an extraction is awaited it has been
    called strictly less often. *)
Theorem analysis_calls_bounded_by_extraction_calls es c :
  run es initialConfig = Some c ->
  (countCalls isAnalyzeCall (effects c)
   <= countCalls isExtractCall (effects c))%nat
  /\ (pending c = AwaitExtract ->
      (countCalls isAnalyzeCall (effects c)
       < countCalls isExtractCall (effects c))%nat).
Proof.
  intros R. pose proof (inv_call_counts _ (reachable_Inv2 _ _ R)) as K.
  split; [lia|]. intros P. rewrite P in K. simpl in K. lia.
Qed.

(** X15: the no-file message is only in the error cell while no file is
    selected, and then there is no result either. *)
Theorem no_file_message_only_without_file es c :
  run es initialConfig = Some c ->
  error (ui c) = Some "No video file selected." ->
  videoFile (ui c) = None /\ analysisResult (ui c) = None.
Proof.
  intros R E.
  pose proof (inv_no_file_error _ (reachable_Inv2 _ _ R) E) as V.
  split; [exact V|].
  pose proof (inv_result_file _ (reachable_Inv _ _ R)) as F.
  rewrite V in F. destruct (analysisResult (ui c)); [|reflexivity].
  discriminate (F eq_refl).
Qed.

(** ** Frame count, uploads and whole runs *)

Lemma step_keeps_frame_count c e c' :
  isSliderChange e = false -> step c e = Some c' ->
  frameCount (ui c') = frameCount (ui c).
Proof.
  intros U S. destruct e; try discriminate U;
    step_cases S; open_handlers; split_branches; reflexivity.
Qed.

(** X13: only the slider changes the frame count: over any sequence of
    events without a slider change, uploads and whole runs included, the
    frame count stays what it was. *)
Theorem frame_count_changes_only_by_slider es : forall c c',
  forallb (fun e => negb (isSliderChange e)) es = true ->
  run es c = Some c' ->
  frameCount (ui c') = frameCount (ui c).
Proof.
  induction es as [|e es IH]; intros c c' U R; simpl in *.
  - now injection R as <-.
  - apply andb_prop in U as [Ue U].
    destruct (step c e) as [c1|] eqn:S; [|discriminate].
    apply negb_true_iff in Ue.
    rewrite <- (step_keeps_frame_count _ _ _ Ue S).
    now apply IH.
Qed.

(** X14: an accepted upload erases what the upload before it did: after
    any upload, uploading a video file gives the configuration that
    uploading the video file alone gives. *)
Theorem accepted_upload_overrides_previous_upload c first second :
  prefix "video/" (type second) = true ->
  exec (handleFileUpload second) (exec (handleFileUpload first) c)
  = exec (handleFileUpload second) c.
Proof.
  intros M. unfold handleFileUpload. rewrite M.
  destruct (prefix "video/" (type first)); reflexivity.
Qed.

Lemma last_with_head {A} (x : A) l : forall d, last (x :: l) d = last l x.
Proof.
  revert x. induction l as [|y l IH]; intros x d; [reflexivity|].
  change (last (x :: y :: l) d) with (last (y :: l) d).
  rewrite (IH y d). symmetry. apply IH.
Qed.

Lemma reportAll_progress ps : forall c,
  extractionProgress (ui (reportAll ps c))
  = last ps (extractionProgress (ui c)).
Proof.
  unfold reportAll.
  induction ps as [|p ps IH]; intros c; [reflexivity|].
  rewrite last_with_head. simpl fold_left. now rewrite IH.
Qed.

Lemma reportAll_pending ps c : pending (reportAll ps c) = pending c.
Proof. apply (reportAll_same ps c). Qed.

Lemma reportAll_effects ps c : effects (reportAll ps c) = effects c.
Proof. apply (reportAll_same ps c). Qed.

(** A run on a selected file, event by event: where it ends. *)
Lemma scripted_run_end c file sc :
  pending c = NoRun -> isLoading (ui c) = false ->
  videoFile (ui c) = Some file ->
  exists c1 c',
    step c AnalyzeTriggered = Some c1
    /\ run (runEvents sc) c = Some c'
    /\ effects c1
       = effects c ++ [ExtractFramesFromVideo file (frameCount (ui c))]
    /\ extractionProgress (ui c') = lastProgress (progressReports sc)
    /\ match extraction sc, analysis sc with
       | Resolved (fr :: frs), Resolved r =>
           analysisResult (ui c') = Some r
           /\ error (ui c') = None
           /\ effects c' = effects c1 ++ [AnalyzeVideoFrames (fr :: frs)]
       | Resolved (fr :: frs), Rejected err =>
           analysisResult (ui c') = None
           /\ error (ui c')
              = Some ("Analysis Failed: " ++ errorMessage err)%string
           /\ effects c'
              = effects c1
                  ++ [AnalyzeVideoFrames (fr :: frs); ConsoleError err]
       | Resolved [], _ =>
           analysisResult (ui c') = None
           /\ error (ui c')
              = Some ("Analysis Failed: " ++ noFramesMessage)%string
           /\ effects c'
              = effects c1 ++ [ConsoleError (ErrorInstance noFramesMessage)]
       | Rejected err, _ =>
           analysisResult (ui c') = None
           /\ error (ui c')
              = Some ("Analysis Failed: " ++ errorMessage err)%string
           /\ effects c' = effects c1 ++ [ConsoleError err]
       end.
Proof.
  intros P L V.
  pose (c1 := commit
                ([ setIsLoading true; setError None; setAnalysisResult None;
                   setExtractionProgress 0;
                   setLoadingMessage extractingMessage;
                   call (ExtractFramesFromVideo file (frameCount (ui c))) ],
                 AwaitExtract) c).
  assert (S1 : step c AnalyzeTriggered = Some c1).
  { unfold step, analyzeAvailable, handleAnalyze_enter, c1.
    rewrite P, L, V. reflexivity. }
  exists c1.
  destruct sc as [ps ex an]. unfold runEvents, lastProgress.
  cbn [progressReports extraction analysis run]. rewrite S1.
  rewrite run_progress by reflexivity.
  pose proof (reportAll_progress ps c1) as Hp.
  pose proof (reportAll_pending ps c1) as Hq.
  pose proof (reportAll_effects ps c1) as He.
  destruct (reportAll_same ps c1) as (_ & _ & Hr & _ & _ & Herr & _).
  destruct (reportAll ps c1) as [[vf' vu' ar' il' lm' er' fc' ep'] p' efs'].
  simpl in Hp, Hq, He, Hr, Herr. subst.
  destruct ex as [[|fr frs]|err]; [| destruct an as [r|err] |];
    (eexists; split; [reflexivity|]; split; [reflexivity|];
     split; [reflexivity|]; split; [reflexivity|]);
    cbn -[append]; rewrite <- ?app_assoc; repeat split.
Qed.

(** X11: the progress shown after a run is the last progress the extractor
    reported during it, and 0 when it reported none: the progress is reset
    when the run starts and not when it ends. *)
Theorem progress_after_run_is_last_report c file sc :
  pending c = NoRun -> isLoading (ui c) = false ->
  videoFile (ui c) = Some file ->
  exists c',
    run (runEvents sc) c = Some c'
    /\ extractionProgress (ui c') = last (progressReports sc) 0.
Proof.
  intros P L V.
  destruct (scripted_run_end c file sc P L V)
    as (c1 & c' & _ & R & _ & Hp & _).
  exists c'. split; [exact R | exact Hp].
Qed.

(** X12: a run whose extraction resolves with at least one frame and whose
    analysis resolves ends with the analysis client's result stored as it
    came and no error; it has called the extractor once, with the selected
    file and the frame count of the moment it was triggered, and the
    analysis client once, with exactly the frames the extractor returned. *)
Theorem successful_run_stores_the_result c file sc frame frames result :
  pending c = NoRun -> isLoading (ui c) = false ->
  videoFile (ui c) = Some file ->
  extraction sc = Resolved (frame :: frames) ->
  analysis sc = Resolved result ->
  exists c',
    run (runEvents sc) c = Some c'
    /\ analysisResult (ui c') = Some result
    /\ error (ui c') = None
    /\ effects c'
       = effects c
           ++ [ ExtractFramesFromVideo file (frameCount (ui c));
                AnalyzeVideoFrames (frame :: frames) ].
Proof.
  intros P L V Ex An.
  destruct (scripted_run_end c file sc P L V)
    as (c1 & c' & _ & R & E1 & _ & Hout).
  rewrite Ex, An in Hout. destruct Hout as (Hr & He & Hc).
  exists c'. repeat split; try assumption.
  rewrite Hc, E1, <- app_assoc. reflexivity.
Qed.

(** ** The rendered controls *)

(** X10: when [URL.createObjectURL] never returns the empty string, the
    player, the slider and the display's [hasVideo] go together: in every
    configuration the controller can get into either all three are there,
    the player showing the URL made for the selected file, or none is. *)
Theorem player_slider_and_hasVideo_go_together es c :
  (forall file, createObjectURL file <> "") ->
  run es initialConfig = Some c ->
  videoPlayer (render (ui c))
  = option_map createObjectURL (videoFile (ui c))
  /\ isSome (videoPlayer (render (ui c)))
     = isSome (frameCountSlider (render (ui c)))
  /\ isSome (videoPlayer (render (ui c)))
     = display_hasVideo (analysisDisplay (render (ui c))).
Proof.
  intros Hne R. pose proof (inv_url _ (reachable_Inv2 _ _ R)) as U.
  unfold render. simpl. rewrite U.
  destruct (videoFile (ui c)) as [file|]; simpl; [|auto].
  specialize (Hne file). destruct (createObjectURL file); [congruence|].
  simpl. auto.
Qed.





Section GatedUploads.

(** [UploadZone] hands over no file while [isLoading] is true. *)
Hypothesis uploadsGated : uploadZoneForwards true = false.

Lemma Current_step c e c' :
  Inv c -> Current c -> step c e = Some c' -> Current c'.
Proof.
  unfold Current. intros I K S.
  pose proof (inv_flag _ I) as F. unfold inFlight in F.
  pose proof (inv_no_result _ I) as N.
  destruct (isLoading (ui c)) eqn:L.
  - specialize (K (or_introl eq_refl)). specialize (N eq_refl).
    destruct e.
    1: { unfold step in S. rewrite L, uploadsGated in S. discriminate S. }
    all: step_cases S; open_handlers; split_branches;
      cbn -[append lastExtracted] in *; rewrite ?lastExtracted_snoc;
      try discriminate; try congruence; intros _; exact K.
  - destruct e; step_cases S; open_handlers; split_branches;
      cbn -[append lastExtracted] in *; rewrite ?lastExtracted_snoc;
      try discriminate; try congruence;
      try (intros [Hl|Hr]; discriminate);
      try (intros _; congruence);
      (intros [Hl|Hr];
       [ congruence
       | first [ discriminate Hr
               | apply K; now right
               | match goal with
                 | V : videoFile _ = None |- _ => rewrite V; apply K; now right
                 end ] ]).
Qed.

Lemma run_Current es : forall c c',
  Inv c -> Current c -> run es c = Some c' -> Current c'.
Proof.
  induction es as [|e es IH]; intros c c' I K R; simpl in R.
  - now injection R as <-.
  - destruct (step c e) as [c1|] eqn:S; [|discriminate].
    eapply IH; [eapply Inv_step | eapply Current_step | exact R]; eassumption.
Qed.

(** X8: with an [UploadZone] that forwards no file while a run is in
    flight, a result that is shown was produced for the file that is
    selected: whenever [analysisResult] is non-null, and all through a run,
    the latest extraction call was made on the selected file. *)
Theorem shown_result_belongs_to_selected_file es c :
  run es initialConfig = Some c ->
  (analysisResult (ui c) <> None ->
   lastExtracted (effects c) = videoFile (ui c))
  /\ (isLoading (ui c) = true ->
      lastExtracted (effects c) = videoFile (ui c)).
Proof.
  intros R.
  assert (K : Current c).
  { refine (run_Current _ _ _ Inv_initial _ R).
    intros [H|H]; discriminate H. }
  split.
  - intros Hr. apply K. right. now destruct (analysisResult (ui c)).
  - intros L. apply K. now left.
Qed.

End GatedUploads.

(** X16: whatever [UploadZone] lets through, no result is held while a run
    is in flight, and an error held during a run can only be the
    invalid-upload message of an upload that arrived meanwhile. *)
Theorem no_result_while_in_flight es c :
  run es initialConfig = Some c ->
  inFlight c = true ->
  analysisResult (ui c) = None
  /\ (error (ui c) = None
      \/ error (ui c) = Some "Please upload a valid video file.").
Proof.
  intros R F. pose proof (reachable_Inv _ _ R) as I.
  rewrite <- (inv_flag _ I) in F.
  split; [exact (inv_no_result _ I F)|].
  pose proof (inv_error _ I F) as E.
  destruct (error (ui c)); [right; now apply E | now left].
Qed.

End Controller.

(** ** Concrete instances

    The browser mints [blobURL]s and [UploadZone] forwards files only while
    nothing is loading. *)

(** C1, as stated, fails: the sample video is uploaded and analysed, then a
    text file is uploaded; the rejected upload sets the error and the result
    of the analysis is still there. *)
Lemma C1_result_and_error_together :
  run blobURL idleOnly (toDone ++ [ FileUploaded sampleText ]) initialConfig
  = Some rejectedUploadConfig
  /\ analysisResult (ui rejectedUploadConfig) = Some sampleResult
  /\ error (ui rejectedUploadConfig) = Some "Please upload a valid video file."
  /\ atMostOne (ui rejectedUploadConfig) = false.
Proof. repeat split. Qed.

(** C3, as stated, fails: the extraction is rejected with a value that is
    not an [Error] and whose message is "MEDIA_ELEMENT_ERROR: Format error";
    the error shown does not carry that message. *)
Lemma C3_message_of_non_error_is_dropped :
  fault_message sampleMediaError = Some "MEDIA_ELEMENT_ERROR: Format error"
  /\ run blobURL idleOnly
       (toExtracting ++ [ ExtractionRejected sampleMediaError ]) initialConfig
     = Some mediaErrorConfig
  /\ error (ui mediaErrorConfig)
     = Some "Analysis Failed: An unknown error occurred during analysis."
  /\ error (ui mediaErrorConfig)
     <> Some "Analysis Failed: MEDIA_ELEMENT_ERROR: Format error".
Proof. repeat split. discriminate. Qed.

(** Instances of the theorems above at the sample values. *)

Lemma C1_result_error_discipline_witness :
  idleOnly true = false
  /\ run blobURL idleOnly toAnalyzing initialConfig = Some analyzingConfig
  /\ (forall e c',
        step blobURL idleOnly analyzingConfig e = Some c' ->
        inFlight analyzingConfig = true -> inFlight c' = false ->
        exactlyOne (ui c') = true)
  /\ (analysisResult (ui analyzingConfig) = None
      /\ error (ui analyzingConfig) = None).
Proof.
  pose proof (C1_result_error_discipline_amended blobURL idleOnly eq_refl
                toAnalyzing analyzingConfig eq_refl)
    as (Hend & _ & _ & Hrun & _).
  split; [reflexivity|]. split; [reflexivity|].
  split; [exact Hend | exact (Hrun eq_refl)].
Defined.

Lemma C2_zero_frames_witness :
  run blobURL idleOnly toExtracting initialConfig = Some extractingConfig
  /\ pending extractingConfig = AwaitExtract
  /\ ~ In (AnalyzeVideoFrames []) (effects extractingConfig)
  /\ exists c',
       step blobURL idleOnly extractingConfig (ExtractionResolved []) = Some c'
       /\ isFailed c' = true
       /\ analysisResult (ui c') = None
       /\ error (ui c') = Some ("Analysis Failed: " ++ noFramesMessage)%string
       /\ effects c'
          = effects extractingConfig
              ++ [ ConsoleError (ErrorInstance noFramesMessage) ]
       /\ ~ In (AnalyzeVideoFrames []) (effects c').
Proof.
  pose proof (C2_zero_frames_is_failure blobURL idleOnly
                toExtracting extractingConfig eq_refl) as [Hcalls Hfail].
  split; [reflexivity|]. split; [reflexivity|].
  split; [exact Hcalls | exact (Hfail eq_refl)].
Defined.

Lemma C3_fault_is_reported_witness :
  run blobURL idleOnly toAnalyzing initialConfig = Some analyzingConfig
  /\ pending analyzingConfig = AwaitAnalyze
  /\ exists c',
       step blobURL idleOnly analyzingConfig
         (AnalysisRejected (ErrorInstance "quota exceeded")) = Some c'
       /\ error (ui c') = Some "Analysis Failed: quota exceeded"
       /\ isLoading (ui c') = false
       /\ loadingMessage (ui c') = ""
       /\ analysisResult (ui c') = None
       /\ pending c' = NoRun.
Proof.
  pose proof (C3_fault_is_reported_amended blobURL idleOnly
                toAnalyzing analyzingConfig (ErrorInstance "quota exceeded")
                eq_refl) as (_ & Hanalysis & _).
  split; [reflexivity|]. split; [reflexivity|].
  exact (Hanalysis eq_refl).
Defined.

Lemma C4_analyze_without_file_witness :
  run blobURL idleOnly [] initialConfig = Some initialConfig
  /\ videoFile (ui initialConfig) = None
  /\ exists c',
       step blobURL idleOnly initialConfig AnalyzeTriggered = Some c'
       /\ error (ui c') = Some "No video file selected."
       /\ isLoading (ui initialConfig) = false
       /\ isLoading (ui c') = false
       /\ videoFile (ui c') = None
       /\ videoUrl (ui c') = videoUrl (ui initialConfig)
       /\ analysisResult (ui c') = analysisResult (ui initialConfig)
       /\ frameCount (ui c') = frameCount (ui initialConfig)
       /\ extractionProgress (ui c') = extractionProgress (ui initialConfig)
       /\ loadingMessage (ui c') = loadingMessage (ui initialConfig)
       /\ pending c' = NoRun
       /\ effects c' = effects initialConfig.
Proof.
  split; [reflexivity|]. split; [reflexivity|].
  exact (C4_analyze_without_file blobURL idleOnly [] initialConfig
           eq_refl eq_refl).
Defined.

Lemma C5_invalid_upload_witness :
  prefix "video/" (type sampleText) = false
  /\ videoFile (ui (exec (handleFileUpload blobURL sampleText) doneConfig))
     = Some sampleVideo
  /\ videoUrl (ui (exec (handleFileUpload blobURL sampleText) doneConfig))
     = Some "blob:clip.mp4"
  /\ error (ui (exec (handleFileUpload blobURL sampleText) doneConfig))
     = Some "Please upload a valid video file.".
Proof.
  pose proof (C5_invalid_upload_keeps_selection blobURL idleOnly
                doneConfig sampleText eq_refl) as (Hfile & Hurl & Herr & _).
  split; [reflexivity|].
  split; [exact Hfile | split; [exact Hurl | exact Herr]].
Defined.

Lemma C6_valid_upload_witness :
  prefix "video/" (type sampleVideo) = true
  /\ inFlight doneConfig = false
  /\ isLoading (ui doneConfig) = false
  /\ videoFile (ui (exec (handleFileUpload blobURL sampleVideo) doneConfig))
     = Some sampleVideo
  /\ analysisResult (ui (exec (handleFileUpload blobURL sampleVideo) doneConfig))
     = None
  /\ isFileSelected (exec (handleFileUpload blobURL sampleVideo) doneConfig)
     = true.
Proof.
  pose proof (C6_valid_upload_selects_file blobURL idleOnly
                doneConfig sampleVideo eq_refl eq_refl eq_refl)
    as (Hfile & _ & Hres & _ & Hsel & _).
  repeat split; assumption.
Defined.

Lemma C7_loading_flag_witness :
  run blobURL idleOnly [ FileUploaded sampleVideo ] initialConfig
  = Some selectedConfig
  /\ isLoading (ui selectedConfig) = inFlight selectedConfig
  /\ exists c1 c',
       step blobURL idleOnly selectedConfig AnalyzeTriggered = Some c1
       /\ isLoading (ui c1) = true
       /\ loadingDuring blobURL idleOnly (tl (runEvents sampleScript)) c1 = true
       /\ run blobURL idleOnly (tl (runEvents sampleScript)) c1 = Some c'
       /\ isLoading (ui c') = false.
Proof.
  pose proof (C7_loading_flag_tracks_run blobURL idleOnly
                [ FileUploaded sampleVideo ] selectedConfig eq_refl)
    as (Hflag & _ & Hrun).
  destruct (Hrun sampleVideo sampleScript eq_refl eq_refl)
    as (c1 & c' & _ & S1 & L1 & _ & D & R & L' & _).
  split; [reflexivity|]. split; [exact Hflag|].
  exists c1, c'. repeat split; assumption.
Defined.

Lemma C8_frame_count_frozen_witness :
  isLoading (ui extractingConfig) = true
  /\ loadingDuring blobURL idleOnly
       [ ProgressReported 1; ExtractionResolved sampleFrames;
         AnalysisResolved sampleResult ] extractingConfig = true
  /\ run blobURL idleOnly
       [ ProgressReported 1; ExtractionResolved sampleFrames;
         AnalysisResolved sampleResult ] extractingConfig = Some doneConfig
  /\ (forall value,
        step blobURL idleOnly extractingConfig (SliderChanged value) = None)
  /\ frameCount (ui doneConfig) = frameCount (ui extractingConfig).
Proof.
  pose proof (C8_frame_count_frozen_in_flight blobURL idleOnly
                [ ProgressReported 1; ExtractionResolved sampleFrames;
                  AnalysisResolved sampleResult ]
                extractingConfig doneConfig eq_refl eq_refl eq_refl)
    as (Hrej & _ & Hsame).
  repeat split; assumption.
Defined.

Lemma C9_run_keeps_selection_witness :
  pending selectedConfig = NoRun
  /\ isLoading (ui selectedConfig) = false
  /\ exists c',
       run blobURL idleOnly (runEvents sampleScript) selectedConfig = Some c'
       /\ videoFile (ui c') = Some sampleVideo
       /\ videoUrl (ui c') = Some "blob:clip.mp4".
Proof.
  pose proof (C9_run_keeps_selection blobURL idleOnly
                selectedConfig eq_refl eq_refl) as (Hrun & _ & _).
  destruct (Hrun sampleVideo sampleScript eq_refl)
    as (c' & R & Hfile & Hurl & _).
  split; [reflexivity|]. split; [reflexivity|].
  exists c'. repeat split; assumption.
Defined.

Lemma C10_message_witness :
  run blobURL idleOnly toDone initialConfig = Some doneConfig
  /\ isLoading (ui doneConfig) = false
  /\ loadingMessage (ui doneConfig) = "".
Proof.
  split; [reflexivity|]. split; [reflexivity|].
  exact (C10_message_only_while_loading blobURL idleOnly
           toDone doneConfig eq_refl eq_refl).
Defined.

(** Instances of the further properties at the sample values. *)

Lemma frame_count_within_slider_range_witness :
  run blobURL idleOnly toDone initialConfig = Some doneConfig
  /\ (5 <= frameCount (ui doneConfig) <= 50)%Z.
Proof.
  split; [reflexivity|].
  exact (proj1 (frame_count_within_slider_range blobURL idleOnly
                  toDone doneConfig eq_refl)).
Defined.

Lemma extraction_called_on_videos_within_range_witness :
  run blobURL idleOnly toDone initialConfig = Some doneConfig
  /\ In (ExtractFramesFromVideo sampleVideo 15) (effects doneConfig)
  /\ prefix "video/" (type sampleVideo) = true
  /\ (5 <= 15 <= 50)%Z.
Proof.
  split; [reflexivity|]. split; [left; reflexivity|].
  exact (extraction_called_on_videos_within_range blobURL idleOnly
           toDone doneConfig sampleVideo 15 eq_refl (or_introl eq_refl)).
Defined.

Lemma preview_belongs_to_selected_video_witness :
  run blobURL idleOnly toDone initialConfig = Some doneConfig
  /\ videoUrl (ui doneConfig)
     = option_map blobURL (videoFile (ui doneConfig)).
Proof.
  split; [reflexivity|].
  exact (proj1 (preview_belongs_to_selected_video blobURL idleOnly
                  toDone doneConfig eq_refl)).
Defined.

Lemma selection_is_never_cleared_witness :
  run blobURL idleOnly
    [ FileUploaded sampleText; AnalyzeTriggered ] selectedConfig
  = Some extractingConfig
  /\ isSome (videoFile (ui selectedConfig)) = true
  /\ isSome (videoFile (ui extractingConfig)) = true.
Proof.
  split; [reflexivity|]. split; [reflexivity|].
  exact (selection_is_never_cleared blobURL idleOnly
           [ FileUploaded sampleText; AnalyzeTriggered ]
           selectedConfig extractingConfig eq_refl eq_refl).
Defined.

Lemma loading_message_follows_phase_witness :
  run blobURL idleOnly toAnalyzing initialConfig = Some analyzingConfig
  /\ pending analyzingConfig = AwaitAnalyze
  /\ loadingMessage (ui analyzingConfig)
     = "Sending frames to Gemini for analysis...".
Proof.
  pose proof (loading_message_follows_phase blobURL idleOnly
                toAnalyzing analyzingConfig eq_refl) as (_ & _ & H).
  split; [reflexivity|]. split; [reflexivity|]. exact (H eq_refl).
Defined.

Lemma error_is_one_of_the_controller_messages_witness :
  run blobURL idleOnly
    (toExtracting ++ [ ExtractionRejected sampleMediaError ]) initialConfig
  = Some mediaErrorConfig
  /\ (error (ui mediaErrorConfig) = None
      \/ error (ui mediaErrorConfig) = Some "Please upload a valid video file."
      \/ error (ui mediaErrorConfig) = Some "No video file selected."
      \/ exists m,
           error (ui mediaErrorConfig) = Some ("Analysis Failed: " ++ m)%string).
Proof.
  split; [reflexivity|].
  exact (error_is_one_of_the_controller_messages blobURL idleOnly
           (toExtracting ++ [ ExtractionRejected sampleMediaError ])
           mediaErrorConfig eq_refl).
Defined.

Lemma analysis_calls_bounded_by_extraction_calls_witness :
  run blobURL idleOnly toExtracting initialConfig = Some extractingConfig
  /\ pending extractingConfig = AwaitExtract
  /\ (countCalls isAnalyzeCall (effects extractingConfig)
      < countCalls isExtractCall (effects extractingConfig))%nat.
Proof.
  pose proof (analysis_calls_bounded_by_extraction_calls blobURL idleOnly
                toExtracting extractingConfig eq_refl) as [_ H].
  split; [reflexivity|]. split; [reflexivity|]. exact (H eq_refl).
Defined.

Lemma no_file_message_only_without_file_witness :
  run blobURL idleOnly [ AnalyzeTriggered ] initialConfig = Some noFileConfig
  /\ error (ui noFileConfig) = Some "No video file selected."
  /\ videoFile (ui noFileConfig) = None
  /\ analysisResult (ui noFileConfig) = None.
Proof.
  split; [reflexivity|]. split; [reflexivity|].
  exact (no_file_message_only_without_file blobURL idleOnly
           [ AnalyzeTriggered ] noFileConfig eq_refl eq_refl).
Defined.

Lemma frame_count_changes_only_by_slider_witness :
  forallb (fun e => negb (isSliderChange e)) toDone = true
  /\ run blobURL idleOnly toDone initialConfig = Some doneConfig
  /\ frameCount (ui doneConfig) = frameCount (ui initialConfig).
Proof.
  split; [reflexivity|]. split; [reflexivity|].
  exact (frame_count_changes_only_by_slider blobURL idleOnly
           toDone initialConfig doneConfig eq_refl eq_refl).
Defined.

Lemma accepted_upload_overrides_previous_upload_witness :
  prefix "video/" (type sampleVideo) = true
  /\ exec (handleFileUpload blobURL sampleVideo)
       (exec (handleFileUpload blobURL sampleText) doneConfig)
     = exec (handleFileUpload blobURL sampleVideo) doneConfig.
Proof.
  split; [reflexivity|].
  exact (accepted_upload_overrides_previous_upload blobURL
           doneConfig sampleText sampleVideo eq_refl).
Defined.

Lemma progress_after_run_is_last_report_witness :
  pending selectedConfig = NoRun
  /\ isLoading (ui selectedConfig) = false
  /\ videoFile (ui selectedConfig) = Some sampleVideo
  /\ exists c',
       run blobURL idleOnly (runEvents sampleScript) selectedConfig = Some c'
       /\ extractionProgress (ui c') = last (progressReports sampleScript) 0.
Proof.
  split; [reflexivity|]. split; [reflexivity|]. split; [reflexivity|].
  exact (progress_after_run_is_last_report blobURL idleOnly
           selectedConfig sampleVideo sampleScript eq_refl eq_refl eq_refl).
Defined.

Lemma successful_run_stores_the_result_witness :
  pending selectedConfig = NoRun
  /\ isLoading (ui selectedConfig) = false
  /\ videoFile (ui selectedConfig) = Some sampleVideo
  /\ exists c',
       run blobURL idleOnly (runEvents sampleScript) selectedConfig = Some c'
       /\ analysisResult (ui c') = Some sampleResult
       /\ error (ui c') = None
       /\ effects c'
          = effects selectedConfig
              ++ [ ExtractFramesFromVideo sampleVideo
                     (frameCount (ui selectedConfig));
                   AnalyzeVideoFrames sampleFrames ].
Proof.
  split; [reflexivity|]. split; [reflexivity|]. split; [reflexivity|].
  exact (successful_run_stores_the_result blobURL idleOnly
           selectedConfig sampleVideo sampleScript
           "data:image/jpeg;base64,AAAA" [ "data:image/jpeg;base64,BBBB" ]
           sampleResult eq_refl eq_refl eq_refl eq_refl eq_refl).
Defined.

Lemma player_slider_and_hasVideo_go_together_witness :
  (forall file, blobURL file <> "")
  /\ run blobURL idleOnly toDone initialConfig = Some doneConfig
  /\ videoPlayer (render (ui doneConfig)) = Some "blob:clip.mp4"
  /\ isSome (videoPlayer (render (ui doneConfig)))
     = isSome (frameCountSlider (render (ui doneConfig))).
Proof.
  assert (N : forall file, blobURL file <> "") by (intros file; discriminate).
  pose proof (player_slider_and_hasVideo_go_together blobURL idleOnly
                toDone doneConfig N eq_refl) as (Hp & Hs & _).
  split; [exact N|]. split; [reflexivity|]. split; [exact Hp | exact Hs].
Defined.


Lemma shown_result_belongs_to_selected_file_witness :
  idleOnly true = false
  /\ run blobURL idleOnly toDone initialConfig = Some doneConfig
  /\ analysisResult (ui doneConfig) <> None
  /\ lastExtracted (effects doneConfig) = videoFile (ui doneConfig).
Proof.
  assert (Hres : analysisResult (ui doneConfig) <> None) by discriminate.
  pose proof (shown_result_belongs_to_selected_file blobURL idleOnly eq_refl
                toDone doneConfig eq_refl) as [H _].
  split; [reflexivity|]. split; [reflexivity|].
  split; [exact Hres | exact (H Hres)].
Defined.

Lemma no_result_while_in_flight_witness :
  run blobURL idleOnly toAnalyzing initialConfig = Some analyzingConfig
  /\ inFlight analyzingConfig = true
  /\ analysisResult (ui analyzingConfig) = None.
Proof.
  split; [reflexivity|]. split; [reflexivity|].
  exact (proj1 (no_result_while_in_flight blobURL idleOnly
                  toAnalyzing analyzingConfig eq_refl eq_refl)).
Defined.
